(** * ac-calc: the fare-earning calculation engine

    A shallow embedding of [ac_calc/airlines/__init__.py]: the distance
    resolver [Airline._distance], the segment calculator
    [Airline.calculate], the identity comparison [Airline.__eq__] and the
    shipped [AirCanada] airline.

    Python values are modelled dynamically: a value is [None], a number
    (an [int] or a [float]) or a [dict] keyed by strings.  Floats are
    modelled as exact real numbers: rounding, infinities and NaN of IEEE
    doubles are outside the model, and a statement proved here holds of
    the arithmetic the code spells out, not of its rounded evaluation.
    Operations that raise in Python return [Raise] here. *)

From Stdlib Require Import Reals Lra Lia ZArith.
From stdpp Require Import base option gmap strings.

Set Warnings "-register-all".

(** ** Python values *)

Inductive num :=
| NInt (z : Z)
| NFloat (r : R).

Inductive pyval :=
| VNone
| VNum (n : num)
| VDict (d : gmap string pyval).

Inductive exn :=
| TypeError
| ValueError
| AttributeError.

Inductive res (A : Type) :=
| Ok (a : A)
| Raise (e : exn).
Arguments Ok {A} a.
Arguments Raise {A} e.

Definition res_bind {A B : Type} (f : A → res B) (m : res A) : res B :=
  match m with
  | Ok a => f a
  | Raise e => Raise e
  end.

#[global] Instance res_mbind : MBind res := @res_bind.
#[global] Instance res_mret : MRet res := @Ok.

(** ** Numbers *)

(** The mathematical value of a number. *)
Definition num_val (n : num) : R :=
  match n with
  | NInt z => IZR z
  | NFloat r => r
  end.

(** [bool(n)]: a number is falsy exactly when it is zero. *)
Definition num_truthy (n : num) : bool :=
  match n with
  | NInt z => negb (Z.eqb z 0)
  | NFloat r => if Req_dec_T r 0 then false else true
  end.

(** [a * b]: an [int] when both are, a [float] otherwise. *)
Definition num_mul (a b : num) : num :=
  match a, b with
  | NInt x, NInt y => NInt (x * y)
  | _, _ => NFloat (num_val a * num_val b)
  end.

(** [a < b]; Python compares an [int] and a [float] by value. *)
Definition num_ltb (a b : num) : bool :=
  match a, b with
  | NInt x, NInt y => Z.ltb x y
  | _, _ => if Rlt_dec (num_val a) (num_val b) then true else false
  end.

(** [int(x)] on a float: the integer part, toward zero. *)
Definition Rtrunc (x : R) : Z :=
  if Rle_dec 0 x then Int_part x else (- Int_part (- x))%Z.

Definition num_int (n : num) : Z :=
  match n with
  | NInt z => z
  | NFloat r => Rtrunc r
  end.

(** ** Operations on values *)

Definition VInt (z : Z) : pyval := VNum (NInt z).
Definition VFloat (r : R) : pyval := VNum (NFloat r).

(** [bool(v)]. *)
Definition py_truthy (v : pyval) : bool :=
  match v with
  | VNone => false
  | VNum n => num_truthy n
  | VDict d => negb (Nat.eqb (size d) 0)
  end.

(** [x or y]. *)
Definition py_or (x y : pyval) : pyval :=
  if py_truthy x then x else y.

(** [d.get(k, default)]. *)
Definition dict_get (d : gmap string pyval) (k : string) (dflt : pyval) : pyval :=
  default dflt (d !! k).

(** [x * y]; defined on numbers only. *)
Definition py_mul (x y : pyval) : res pyval :=
  match x, y with
  | VNum a, VNum b => Ok (VNum (num_mul a b))
  | _, _ => Raise TypeError
  end.

(** [x < y]; [None] and dicts are not ordered. *)
Definition py_lt (x y : pyval) : res bool :=
  match x, y with
  | VNum a, VNum b => Ok (num_ltb a b)
  | _, _ => Raise TypeError
  end.

(** [max(x, y)]: the first argument unless the second is greater. *)
Definition py_max (x y : pyval) : res pyval :=
  gt ← py_lt x y; Ok (if gt : bool then y else x).

(** [min(x, y)]: the first argument unless the second is smaller. *)
Definition py_min (x y : pyval) : res pyval :=
  lt ← py_lt y x; Ok (if lt : bool then y else x).

(** [int(x)]. *)
Definition py_int (x : pyval) : res pyval :=
  match x with
  | VNum n => Ok (VInt (num_int n))
  | _ => Raise TypeError
  end.

(** ** The [math] functions used by the resolver *)

Definition radians (x : R) : R := (x * (PI / 180))%R.

Definition math_pow2 (x : R) : R := (x ^ 2)%R.

(** [math.sqrt] raises [ValueError] on a negative argument. *)
Definition math_sqrt (x : R) : res R :=
  if Rlt_dec x 0 then Raise ValueError else Ok (sqrt x).

(** [math.asin] raises [ValueError] outside [-1, 1]. *)
Definition math_asin (x : R) : res R :=
  if Rlt_dec x (-1) then Raise ValueError
  else if Rlt_dec 1 x then Raise ValueError
  else Ok (asin x).

(** ** Reference data *)

(** Modelled from the spec: the DistanceRecord of [ac_calc.locations]
    (the module is not part of the sources).  It carries the destination
    code, the currently recorded distance and the legacy distance; either
    distance may be [None].  An instance is an ordinary object, hence
    truthy. *)
Module DistanceRecord.
Record t := mk {
  destination : string;
  distance : pyval;
  old_distance : pyval;
}.
End DistanceRecord.

(** Modelled from the spec: the Airport of [ac_calc.locations]: the IATA
    code, the coordinates in degrees, and the recorded distances keyed by
    destination code. *)
Module Airport.
Record t := mk {
  iata_code : string;
  latitude : R;
  longitude : R;
  distances : gmap string DistanceRecord.t;
}.
End Airport.

(** Modelled from the spec: the FareBrand of [ac_calc.aeroplan]. *)
Module FareBrand.
Record t := mk {
  name : string;
  fare_classes : list string;
}.
End FareBrand.

(** Modelled from the spec: the AeroplanStatus of [ac_calc.aeroplan]: a
    bonus multiplier and a minimum earning value, both numbers. *)
Module AeroplanStatus.
Record t := mk {
  name : string;
  bonus_factor : num;
  min_earning_value : num;
}.
End AeroplanStatus.

Record SegmentCalculation := mkSegmentCalculation {
  distance : pyval;
  app : pyval;
  app_earning_rate : pyval;
  app_bonus_factor : pyval;
  app_bonus : pyval;
  sqm : pyval;
  sqm_earning_rate : pyval;
}.

Definition EarthRadiusMi : R := 3959.0%R.

(** ** The Airline class *)

Module Airline.

Record t := mk {
  id : string;
  name : string;
  region : string;
  website : string;
  logo : option string;
  star_alliance_member : bool;
  earns_app : bool;
  earns_sqm : bool;
  earning_rates : gmap string pyval;
}.

(** The value of an attribute: a [str] or one of the values above. *)
Inductive attr :=
| AStr (s : string)
| AVal (v : pyval).

(** What [__eq__] can be handed as [other]: an Airline, a plain value
    ([None], a number, a dict; none of them has an attribute [id]), or an
    instance of some other class with its attributes. *)
Inductive pyobj :=
| OAirline (a : t)
| OPlain (v : pyval)
| OInstance (attrs : gmap string attr).

(** [other.id] *)
Definition getattr_id (other : pyobj) : res attr :=
  match other with
  | OAirline a => Ok (AStr (id a))
  | OPlain _ => Raise AttributeError
  | OInstance attrs =>
      match attrs !! "id" with
      | Some v => Ok v
      | None => Raise AttributeError
      end
  end.

(** [s == v] for a string [s]: values of another type are unequal. *)
Definition str_eq (s : string) (v : attr) : bool :=
  match v with
  | AStr s' => String.eqb s s'
  | AVal _ => false
  end.

Definition __eq__ (self : t) (other : pyobj) : res bool :=
  other_id ← getattr_id other;
  Ok (str_eq (id self) other_id).

Definition _distance (self : t) (origin destination : Airport.t) : res pyval :=
  match Airport.distances origin !! Airport.iata_code destination with
  | Some distance =>
      Ok (py_or (DistanceRecord.distance distance)
                (DistanceRecord.old_distance distance))
  | None =>
      let d_lat := radians (Airport.latitude destination - Airport.latitude origin) in
      let d_lon := radians (Airport.longitude destination - Airport.longitude origin) in
      let origin_lat := radians (Airport.latitude origin) in
      let destination_lat := radians (Airport.latitude destination) in
      let a := (math_pow2 (sin (d_lat / 2))
                + math_pow2 (sin (d_lon / 2)) * cos origin_lat * cos destination_lat)%R in
      root ← math_sqrt a;
      angle ← math_asin root;
      let c := (2 * angle)%R in
      Ok (VFloat (EarthRadiusMi * c))
  end.

Definition calculate (self : t) (origin destination : Airport.t)
    (fare_brand : FareBrand.t) (fare_class : string) (ticket_number : string)
    (aeroplan_status : AeroplanStatus.t) : res SegmentCalculation :=
  distance ← _distance self origin destination;
  if negb (py_truthy distance) then
    Ok (mkSegmentCalculation distance (VInt 0) (VInt 0) (VInt 0) (VInt 0) (VInt 0) (VInt 0))
  else
    let app_earning_rate :=
      py_or (dict_get (earning_rates self) fare_class VNone)
            (dict_get (earning_rates self) (FareBrand.name fare_brand) (VInt 0)) in
    let app_bonus_factor := VNum (AeroplanStatus.bonus_factor aeroplan_status) in
    app ← (if earns_app self then
             earned ← py_mul distance app_earning_rate;
             py_max earned (VNum (AeroplanStatus.min_earning_value aeroplan_status))
           else Ok (VInt 0));
    capped ← py_min app distance;
    app_bonus ← py_mul capped app_bonus_factor;
    let sqm_earning_rate :=
      py_or (dict_get (earning_rates self) fare_class VNone)
            (dict_get (earning_rates self) (FareBrand.name fare_brand) (VInt 0)) in
    sqm ← (if earns_sqm self then
             earned ← py_mul distance sqm_earning_rate;
             py_max earned (VNum (AeroplanStatus.min_earning_value aeroplan_status))
           else Ok (VInt 0));
    app_int ← py_int app;
    app_bonus_int ← py_int app_bonus;
    sqm_int ← py_int sqm;
    Ok (mkSegmentCalculation distance app_int app_earning_rate app_bonus_factor
          app_bonus_int sqm_int sqm_earning_rate).

End Airline.

(** ** The shipped Air Canada airline *)

Definition AirCanada_Domestic : gmap string pyval :=
  <["Basic" := VFloat 0.10]> (
  <["Standard" := VFloat 0.25]> (
  <["Flex" := VFloat 1.0]> (
  <["Comfort" := VFloat 1.15]> (
  <["Latitude" := VFloat 1.25]> (
  <["Premium Economy (Lowest)" := VFloat 1.25]> (
  <["Premium Economy (Flexible)" := VFloat 1.25]> (
  <["Business (Lowest)" := VFloat 1.50]> (
  <["Business (Flexible)" := VFloat 1.50]> ∅)))))))).

Definition AirCanada_Transborder : gmap string pyval :=
  <["Basic" := VFloat 0.25]> (
  <["Standard" := VFloat 0.50]> (
  <["Flex" := VFloat 1.0]> (
  <["Comfort" := VFloat 1.15]> (
  <["Latitude" := VFloat 1.25]> (
  <["Premium Economy (Lowest)" := VFloat 1.25]> (
  <["Premium Economy (Flexible)" := VFloat 1.25]> (
  <["Business (Lowest)" := VFloat 1.50]> (
  <["Business (Flexible)" := VFloat 1.50]> ∅)))))))).

Definition AirCanada_International : gmap string pyval :=
  <["Basic" := VFloat 0.25]> (
  <["Standard" := VFloat 0.50]> (
  <["Flex" := VFloat 1.0]> (
  <["Comfort" := VFloat 1.15]> (
  <["Latitude" := VFloat 1.25]> (
  <["Premium Economy (Lowest)" := VFloat 1.25]> (
  <["Premium Economy (Flexible)" := VFloat 1.25]> (
  <["Business (Lowest)" := VFloat 1.50]> (
  <["Business (Flexible)" := VFloat 1.50]> ∅)))))))).

Definition AirCanada : Airline.t := {|
  Airline.id := "air-canada";
  Airline.name := "Air Canada";
  Airline.region := "Canada & U.S.";
  Airline.website := "http://www.aircanda.com";
  Airline.logo := None;
  Airline.star_alliance_member := true;
  Airline.earns_app := true;
  Airline.earns_sqm := true;
  Airline.earning_rates :=
    <["Domestic" := VDict (<["*" := VDict AirCanada_Domestic]> ∅)]> (
    <["Transborder" := VDict (<["*" := VDict AirCanada_Transborder]> ∅)]> (
    <["International" := VDict (<["*" := VDict AirCanada_International]> ∅)]> ∅));
|}.

(** ** The catalog of airlines

    [AIRLINES = (AirCanada,) + _load_airline_partners()]; the partners
    come from [partners.json], which is read at import time and is a
    parameter here. *)

Definition AIRLINES (partners : list Airline.t) : list Airline.t :=
  AirCanada :: partners.

Definition DEFAULT_AIRLINE : Airline.t := AirCanada.
Definition DEFAULT_AIRLINE_INDEX : nat := 0.

(** ** Sequences: [index] and [in] *)

(** [seq.index(value)]: the position of the first item with
    [item == value]; ValueError when there is none.  The comparison is a
    parameter, since [==] may itself raise. *)
Fixpoint py_index {A : Type} (eq : A → A → res bool) (seq : list A) (value : A)
    : res nat :=
  match seq with
  | [] => Raise ValueError
  | item :: rest =>
      same ← eq item value;
      if same : bool then Ok 0%nat
      else i ← py_index eq rest value; Ok (S i)
  end.

(** [value in seq] *)
Fixpoint py_in {A : Type} (eq : A → A → res bool) (seq : list A) (value : A)
    : res bool :=
  match seq with
  | [] => Ok false
  | item :: rest =>
      same ← eq item value;
      if same : bool then Ok true else py_in eq rest value
  end.

(** [==] between two airlines goes through [Airline.__eq__]. *)
Definition airline_eq (item value : Airline.t) : res bool :=
  Airline.__eq__ item (Airline.OAirline value).

(** [==] between two strings. *)
Definition py_str_eq (a b : string) : res bool := Ok (String.eqb a b).

(** ** The calculator page of the app ([apps/ac-calc.py]) *)

(** Modelled from the spec: the Segment of [ac_calc.itinerary], with the
    fields the app passes to its constructor. *)
Module Segment.
Record t := mk {
  airline : Airline.t;
  origin : Airport.t;
  destination : Airport.t;
  fare_class : string;
  fare_brand : FareBrand.t;
}.
End Segment.

(** The "Add Segment" button: after a last segment, its return leg with
    the same airline and fare; on an empty itinerary a fresh [Segment()],
    which is a parameter here ([new_segment]).  The app appends in place;
    the new list is returned here. *)
Definition add_segment (new_segment : Segment.t) (segments : list Segment.t)
    : list Segment.t :=
  match last segments with
  | Some ref_segment =>
      segments ++ [ {| Segment.airline := Segment.airline ref_segment;
                       Segment.origin := Segment.destination ref_segment;
                       Segment.destination := Segment.origin ref_segment;
                       Segment.fare_class := Segment.fare_class ref_segment;
                       Segment.fare_brand := Segment.fare_brand ref_segment |} ]
  | None => segments ++ [new_segment]
  end.

(** The index handed to the airline select box:
    [AIRLINES.index(segment.airline)]. *)
Definition airline_index (partners : list Airline.t) (segment : Segment.t)
    : res nat :=
  py_index airline_eq (AIRLINES partners) (Segment.airline segment).

(** The index handed to the fare-class select box:
    [fare_classes.index(fare_class) if fare_class in fare_classes else 0]. *)
Definition fare_class_index (segment : Segment.t) : res nat :=
  let fare_classes := FareBrand.fare_classes (Segment.fare_brand segment) in
  present ← py_in py_str_eq fare_classes (Segment.fare_class segment);
  if present : bool
  then py_index py_str_eq fare_classes (Segment.fare_class segment)
  else Ok 0%nat.

(** [a + b] on numbers: an [int] when both are, a [float] otherwise. *)
Definition num_add (a b : num) : num :=
  match a, b with
  | NInt x, NInt y => NInt (x + y)
  | _, _ => NFloat (num_val a + num_val b)
  end.

(** [x + y]; defined on numbers only. *)
Definition py_add (x y : pyval) : res pyval :=
  match x, y with
  | VNum a, VNum b => Ok (VNum (num_add a b))
  | _, _ => Raise TypeError
  end.

(** [sum(items)]: the items are added to 0 from left to right. *)
Fixpoint py_sum_from (acc : pyval) (items : list pyval) : res pyval :=
  match items with
  | [] => Ok acc
  | item :: rest => acc' ← py_add acc item; py_sum_from acc' rest
  end.

Definition py_sum (items : list pyval) : res pyval :=
  py_sum_from (VInt 0) items.

(** The four totals of the page, computed in this order. *)
Record Totals := mkTotals {
  total_distance : pyval;
  total_app : pyval;
  total_app_bonus : pyval;
  total_sqm : pyval;
}.

Definition totals (segment_calculations : list SegmentCalculation) : res Totals :=
  total_distance ← py_sum (map distance segment_calculations);
  total_app ← py_sum (map app segment_calculations);
  total_app_bonus ← py_sum (map app_bonus segment_calculations);
  total_sqm ← py_sum (map sqm segment_calculations);
  Ok (mkTotals total_distance total_app total_app_bonus total_sqm).

(** The "Aeroplan Points + Status Bonus" metric: its value
    [total_app + total_app_bonus] and its delta [total_app_bonus or None]. *)
Definition points_with_bonus (t : Totals) : res pyval :=
  py_add (total_app t) (total_app_bonus t).

Definition bonus_delta (t : Totals) : pyval :=
  py_or (total_app_bonus t) VNone.

(** The "Aeroplan Points" cell of a row of the details table:
    [calc.app + calc.app_bonus]. *)
Definition row_points (calc : SegmentCalculation) : res pyval :=
  py_add (app calc) (app_bonus calc).

(** ** The distance browser of the app *)

(** The loop of [browse_distances] over [origin.distances.items()]: three
    columns grown side by side. *)
Definition browse_distances_columns (items : list (string * DistanceRecord.t))
    : list string * list pyval * list pyval :=
  fold_left
    (λ '(destinations, old_distances, new_distances) '(_, distance),
       (destinations ++ [DistanceRecord.destination distance],
        old_distances ++ [DistanceRecord.old_distance distance],
        new_distances ++ [DistanceRecord.distance distance]))
    items ([], [], []).

(** ** Specification vocabulary *)

(** The earning-rate expression of [calculate] (the same expression gives
    [app_earning_rate] and [sqm_earning_rate]). *)
Definition resolve_rate (self : Airline.t) (fare_class : string)
    (fare_brand : FareBrand.t) : pyval :=
  py_or (dict_get (Airline.earning_rates self) fare_class VNone)
        (dict_get (Airline.earning_rates self) (FareBrand.name fare_brand) (VInt 0)).

(** The rate lookup as the specification words it: the fare-class key
    first, the fare-brand name only when that key is absent, 0 when both
    are absent. *)
Definition resolve_rate_spec (self : Airline.t) (fare_class : string)
    (fare_brand : FareBrand.t) : pyval :=
  match Airline.earning_rates self !! fare_class with
  | Some v => v
  | None =>
      match Airline.earning_rates self !! FareBrand.name fare_brand with
      | Some v => v
      | None => VInt 0
      end
  end.

(** The great-circle distance as the specification words it: coordinates
    converted to radians first, then the haversine formula. *)
Definition haversine_spec (origin destination : Airport.t) : R :=
  let lat1 := radians (Airport.latitude origin) in
  let lat2 := radians (Airport.latitude destination) in
  let lon1 := radians (Airport.longitude origin) in
  let lon2 := radians (Airport.longitude destination) in
  let a := ((sin ((lat2 - lat1) / 2))² + cos lat1 * cos lat2 * (sin ((lon2 - lon1) / 2))²)%R in
  let c := (2 * asin (sqrt a))%R in
  (3959.0 * c)%R.

(** The points before [int()] is applied: [app] of the source. *)
Definition points_real (self : Airline.t) (d r : num) (status : AeroplanStatus.t) : R :=
  if Airline.earns_app self
  then Rmax (num_val d * num_val r) (num_val (AeroplanStatus.min_earning_value status))
  else 0%R.

(** A value is a number. *)
Definition is_num (v : pyval) : bool :=
  match v with
  | VNum _ => true
  | _ => false
  end.

(** A value is a number or [None]. *)
Definition is_opt_num (v : pyval) : bool :=
  match v with
  | VDict _ => false
  | _ => true
  end.

(** The declared data model: recorded distances are numbers or absent,
    rate tables are numeric. *)
Definition Airport_wf (a : Airport.t) : Prop :=
  map_Forall (λ _ r, is_opt_num (DistanceRecord.distance r) = true
                     ∧ is_opt_num (DistanceRecord.old_distance r) = true)
             (Airport.distances a).

Definition Airline_wf (a : Airline.t) : Prop :=
  map_Forall (λ _ v, is_num v = true) (Airline.earning_rates a).

(** The keys of the shipped Air Canada table. *)
Definition is_region_key (k : string) : Prop :=
  k = "Domestic" ∨ k = "Transborder" ∨ k = "International".

(** The return leg of a segment: airports swapped, airline and fare kept. *)
Definition return_leg (ref_segment : Segment.t) : Segment.t :=
  {| Segment.airline := Segment.airline ref_segment;
     Segment.origin := Segment.destination ref_segment;
     Segment.destination := Segment.origin ref_segment;
     Segment.fare_class := Segment.fare_class ref_segment;
     Segment.fare_brand := Segment.fare_brand ref_segment |}.

(** A calculation that some call of [calculate] returned. *)
Definition calculated (c : SegmentCalculation) : Prop :=
  ∃ self origin destination fare_brand fare_class ticket_number aeroplan_status,
    Airline.calculate self origin destination fare_brand fare_class
        ticket_number aeroplan_status = Ok c.

(** The real value of a number (0 for anything else). *)
Definition val_of (v : pyval) : R :=
  match v with
  | VNum n => num_val n
  | _ => 0%R
  end.

Definition Rsum (xs : list R) : R := foldr Rplus 0%R xs.

(** The integer carried by a value (0 for anything else). *)
Definition as_int (v : pyval) : Z :=
  match v with
  | VNum (NInt z) => z
  | _ => 0%Z
  end.

Definition Zsum (zs : list Z) : Z := foldr Z.add 0%Z zs.

(** The statements of the specification that the code is compared with. *)

(** The resolved rate is the flat two-key lookup of the specification. *)
Definition rate_lookup_claim (self : Airline.t) (fare_class : string)
    (fare_brand : FareBrand.t) : Prop :=
  resolve_rate self fare_class fare_brand
  = resolve_rate_spec self fare_class fare_brand.

(** With a record, the current distance is returned whenever it is
    present, the legacy distance when it is absent. *)
Definition recorded_distance_claim (self : Airline.t)
    (origin destination : Airport.t) : Prop :=
  ∀ rec, Airport.distances origin !! Airport.iata_code destination = Some rec →
    (DistanceRecord.distance rec ≠ VNone →
       Airline._distance self origin destination = Ok (DistanceRecord.distance rec))
    ∧ (DistanceRecord.distance rec = VNone →
       Airline._distance self origin destination = Ok (DistanceRecord.old_distance rec)).

(** Equality is by identity key between airlines, and "not equal" for a
    value of another type. *)
Definition eq_claim (self : Airline.t) (other : Airline.pyobj) : Prop :=
  Airline.__eq__ self other
  = Ok (match other with
        | Airline.OAirline b => String.eqb (Airline.id self) (Airline.id b)
        | _ => false
        end).

(** A record whose two distances are absent counts as no record. *)
Definition empty_record_claim (self : Airline.t)
    (origin destination : Airport.t) : Prop :=
  ∀ rec, Airport.distances origin !! Airport.iata_code destination = Some rec →
    DistanceRecord.distance rec = VNone →
    DistanceRecord.old_distance rec = VNone →
    Airline._distance self origin destination
    = Ok (VFloat (haversine_spec origin destination)).

(** ** Sample reference data

    Two airports, a status tier and two partner airlines, used to run the
    definitions on concrete inputs. *)

Definition YVR : Airport.t := {|
  Airport.iata_code := "YVR";
  Airport.latitude := 49.19%R;
  Airport.longitude := (-123.18)%R;
  Airport.distances := ∅;
|}.

(** Toronto, with four recorded destinations: both distances present,
    only the legacy one, none of the two, and a current distance of 0. *)
Definition YYZ : Airport.t := {|
  Airport.iata_code := "YYZ";
  Airport.latitude := 43.68%R;
  Airport.longitude := (-79.63)%R;
  Airport.distances :=
    <["YVR" := DistanceRecord.mk "YVR" (VInt 2080) (VInt 2085)]> (
    <["LHR" := DistanceRecord.mk "LHR" VNone (VInt 3545)]> (
    <["YOW" := DistanceRecord.mk "YOW" VNone VNone]> (
    <["YTZ" := DistanceRecord.mk "YTZ" (VInt 0) (VInt 12)]> ∅)));
|}.

Definition YOW : Airport.t := {|
  Airport.iata_code := "YOW";
  Airport.latitude := 45.32%R;
  Airport.longitude := (-75.67)%R;
  Airport.distances := ∅;
|}.

Definition YTZ : Airport.t := {|
  Airport.iata_code := "YTZ";
  Airport.latitude := 43.63%R;
  Airport.longitude := (-79.40)%R;
  Airport.distances := ∅;
|}.

Definition Flex : FareBrand.t := {|
  FareBrand.name := "Flex";
  FareBrand.fare_classes := ["M"; "U"; "H"; "Q"; "V"];
|}.

Definition Status25K : AeroplanStatus.t := {|
  AeroplanStatus.name := "25K";
  AeroplanStatus.bonus_factor := NFloat 0.25;
  AeroplanStatus.min_earning_value := NInt 250;
|}.

(** A partner airline with a flat, numeric rate table. *)
Definition Partner : Airline.t := {|
  Airline.id := "partner";
  Airline.name := "Partner";
  Airline.region := "Europe";
  Airline.website := "http://www.example.com";
  Airline.logo := None;
  Airline.star_alliance_member := true;
  Airline.earns_app := true;
  Airline.earns_sqm := true;
  Airline.earning_rates :=
    <["M" := VFloat (1 / 3)]> (<["Y" := VInt 0]> (<["Flex" := VInt 1]> ∅));
|}.

(** The same identity key as [Partner], every other field different. *)
Definition PartnerRenamed : Airline.t := {|
  Airline.id := "partner";
  Airline.name := "Partner Airways";
  Airline.region := "Asia";
  Airline.website := "http://www.example.org";
  Airline.logo := Some "partner.png";
  Airline.star_alliance_member := false;
  Airline.earns_app := false;
  Airline.earns_sqm := false;
  Airline.earning_rates := ∅;
|}.

(** Toronto to Vancouver on the partner, Flex fare, class "M". *)
Definition Outbound : Segment.t := {|
  Segment.airline := Partner;
  Segment.origin := YYZ;
  Segment.destination := YVR;
  Segment.fare_class := "M";
  Segment.fare_brand := Flex;
|}.

(** Ottawa to Vancouver: neither airport holds a record for the other. *)
Definition Unrecorded : Segment.t := {|
  Segment.airline := Partner;
  Segment.origin := YOW;
  Segment.destination := YVR;
  Segment.fare_class := "Q";
  Segment.fare_brand := Flex;
|}.

(** What the calculator returns for [Outbound] under 25K status, and for
    Toronto to Ottawa, whose record holds no distance. *)
Definition Calc_YYZ_YVR : SegmentCalculation := {|
  distance := VInt 2080;
  app := VInt 693;
  app_earning_rate := VFloat (1 / 3);
  app_bonus_factor := VFloat 0.25;
  app_bonus := VInt 173;
  sqm := VInt 693;
  sqm_earning_rate := VFloat (1 / 3);
|}.

Definition Calc_YYZ_YOW : SegmentCalculation := {|
  distance := VNone;
  app := VInt 0;
  app_earning_rate := VInt 0;
  app_bonus_factor := VInt 0;
  app_bonus := VInt 0;
  sqm := VInt 0;
  sqm_earning_rate := VInt 0;
|}.

(** ** Numbers: basic facts *)

Section Numbers.
Local Open Scope R_scope.

Lemma Rtrunc_nonneg (x : R) :
  0 <= x → IZR (Rtrunc x) <= x < IZR (Rtrunc x) + 1.
Proof.
  intros Hx. unfold Rtrunc. destruct (Rle_dec 0 x) as [_|]; [|lra].
  destruct (base_Int_part x). lra.
Qed.

Lemma Rtrunc_neg (x : R) :
  x < 0 → IZR (Rtrunc x) - 1 < x <= IZR (Rtrunc x).
Proof.
  intros Hx. unfold Rtrunc. destruct (Rle_dec 0 x) as [|_]; [lra|].
  destruct (base_Int_part (- x)). rewrite opp_IZR. lra.
Qed.

Lemma Rtrunc_unique_nonneg (x : R) (z : Z) :
  0 <= x → IZR z <= x < IZR z + 1 → Rtrunc x = z.
Proof.
  intros Hx Hz. unfold Rtrunc. destruct (Rle_dec 0 x) as [_|]; [|lra].
  symmetry. apply Int_part_spec. lra.
Qed.

Lemma Rtrunc_unique_neg (x : R) (z : Z) :
  x <= 0 → IZR z - 1 < x <= IZR z → Rtrunc x = z.
Proof.
  intros Hx Hz. destruct (Req_dec_T x 0) as [->|Hne].
  - assert (z = 0)%Z as ->.
    { destruct Hz as [Hlo Hhi]. apply le_IZR in Hhi.
      assert (IZR z < 1) as Hlt by lra. apply lt_IZR in Hlt. lia. }
    apply Rtrunc_unique_nonneg; lra.
  - unfold Rtrunc. destruct (Rle_dec 0 x) as [|_]; [lra|].
    assert (- z = Int_part (- x))%Z as <-; [|lia].
    apply Int_part_spec. rewrite opp_IZR. lra.
Qed.

Lemma Rtrunc_IZR (z : Z) : Rtrunc (IZR z) = z.
Proof.
  destruct (Rle_dec 0 (IZR z)).
  - apply Rtrunc_unique_nonneg; lra.
  - apply Rtrunc_unique_neg; lra.
Qed.


Lemma num_int_val (n : num) : num_int n = Rtrunc (num_val n).
Proof. destruct n; simpl; [by rewrite Rtrunc_IZR|done]. Qed.

Lemma num_mul_val (a b : num) : num_val (num_mul a b) = num_val a * num_val b.
Proof. destruct a, b; simpl; try done. apply mult_IZR. Qed.

Lemma num_ltb_spec (a b : num) : num_ltb a b = true ↔ num_val a < num_val b.
Proof.
  destruct a as [x|x], b as [y|y]; simpl;
    try (destruct (Rlt_dec _ _); split; (done || lra)).
  rewrite Z.ltb_lt. split; [apply IZR_lt|apply lt_IZR].
Qed.

Lemma num_truthy_false (n : num) : num_truthy n = false ↔ num_val n = 0.
Proof.
  destruct n as [z|r]; simpl.
  - rewrite negb_false_iff, Z.eqb_eq. split; [by intros ->|apply eq_IZR].
  - destruct (Req_dec_T r 0); split; (done || lra).
Qed.

Lemma num_truthy_true (n : num) : num_truthy n = true ↔ num_val n ≠ 0.
Proof.
  rewrite <-num_truthy_false. destruct (num_truthy n); split; done.
Qed.

End Numbers.

(** ** Values: basic facts *)

(** Run the error monad as far as the values met so far allow. *)
Ltac res_step :=
  repeat (progress (unfold mbind, res_mbind, res_bind; simpl)).

Section Values.
Local Open Scope R_scope.

Lemma py_max_num (a b : num) :
  ∃ m, py_max (VNum a) (VNum b) = Ok (VNum m)
       ∧ num_val m = Rmax (num_val a) (num_val b).
Proof.
  unfold py_max; simpl. destruct (num_ltb a b) eqn:Hlt.
  - exists b. split; [done|]. apply num_ltb_spec in Hlt.
    rewrite Rmax_right; lra.
  - exists a. split; [done|].
    assert (¬ num_val a < num_val b) by (rewrite <-num_ltb_spec; congruence).
    rewrite Rmax_left; lra.
Qed.

Lemma py_min_num (a b : num) :
  ∃ m, py_min (VNum a) (VNum b) = Ok (VNum m)
       ∧ num_val m = Rmin (num_val a) (num_val b).
Proof.
  unfold py_min; simpl. destruct (num_ltb b a) eqn:Hlt.
  - exists b. split; [done|]. apply num_ltb_spec in Hlt.
    rewrite Rmin_right; lra.
  - exists a. split; [done|].
    assert (¬ num_val b < num_val a) by (rewrite <-num_ltb_spec; congruence).
    rewrite Rmin_left; lra.
Qed.

Lemma py_mul_num (a b : num) : py_mul (VNum a) (VNum b) = Ok (VNum (num_mul a b)).
Proof. reflexivity. Qed.

Lemma py_int_num (n : num) : py_int (VNum n) = Ok (VInt (Rtrunc (num_val n))).
Proof. simpl. by rewrite num_int_val. Qed.

End Values.

(** ** The segment calculator on a travelled segment *)

Section Calculate.
Local Open Scope R_scope.
#[local] Opaque py_mul py_max py_min py_int.

Variables (self : Airline.t) (origin destination : Airport.t).
Variables (fare_brand : FareBrand.t) (fare_class ticket_number : string).
Variable aeroplan_status : AeroplanStatus.t.

Let floor := AeroplanStatus.min_earning_value aeroplan_status.
Let bonus := AeroplanStatus.bonus_factor aeroplan_status.

(** With a nonzero distance and a numeric rate, [calculate] returns, and
    every field is determined by the real-valued quantities. *)
Lemma calculate_travelled (d r : num) :
  Airline._distance self origin destination = Ok (VNum d) →
  num_val d ≠ 0 →
  resolve_rate self fare_class fare_brand = VNum r →
  Airline.calculate self origin destination fare_brand fare_class
      ticket_number aeroplan_status
  = Ok {|
      distance := VNum d;
      app := VInt (Rtrunc (points_real self d r aeroplan_status));
      app_earning_rate := VNum r;
      app_bonus_factor := VNum bonus;
      app_bonus :=
        VInt (Rtrunc (Rmin (points_real self d r aeroplan_status) (num_val d)
                      * num_val bonus));
      sqm :=
        VInt (Rtrunc (if Airline.earns_sqm self
                      then Rmax (num_val d * num_val r) (num_val floor) else 0));
      sqm_earning_rate := VNum r;
    |}.
Proof.
  intros Hdist Hd Hrate. unfold Airline.calculate. rewrite Hdist. res_step.
  apply num_truthy_true in Hd. rewrite Hd. simpl.
  fold (resolve_rate self fare_class fare_brand). rewrite Hrate.
  unfold points_real. fold floor bonus.
  destruct (py_max_num (num_mul d r) floor) as (mx & Emx & Hmx).
  rewrite num_mul_val in Hmx.
  destruct (Airline.earns_app self), (Airline.earns_sqm self); res_step;
    rewrite ?py_mul_num; res_step; rewrite ?Emx; res_step; unfold VInt;
    match goal with
    | |- context [py_min (VNum ?p) _] =>
        destruct (py_min_num p d) as (m & -> & Hm)
    end; res_step; rewrite py_mul_num; res_step;
    rewrite !py_int_num; res_step; unfold VInt;
    rewrite num_mul_val, Hm, ?Hmx; reflexivity.
Qed.

(** With a zero distance nothing is looked up or multiplied. *)
Lemma calculate_zero_distance (n : num) :
  Airline._distance self origin destination = Ok (VNum n) →
  num_val n = 0 →
  Airline.calculate self origin destination fare_brand fare_class
      ticket_number aeroplan_status
  = Ok {| distance := VNum n; app := VInt 0; app_earning_rate := VInt 0;
          app_bonus_factor := VInt 0; app_bonus := VInt 0; sqm := VInt 0;
          sqm_earning_rate := VInt 0 |}.
Proof.
  intros Hdist Hn. unfold Airline.calculate. rewrite Hdist. res_step.
  apply num_truthy_false in Hn. by rewrite Hn.
Qed.

End Calculate.

(** ** The haversine branch in exact arithmetic *)

Section Haversine.
Local Open Scope R_scope.

(** [cos (u - v) * cos (u + v) = cos² u - sin² v]. *)
Lemma cos_minus_plus (u v : R) :
  cos (u - v) * cos (u + v) = (cos u)² - (sin v)².
Proof.
  rewrite cos_minus, cos_plus. unfold Rsqr.
  pose proof (sin2_cos2 u) as Hu. pose proof (sin2_cos2 v) as Hv.
  unfold Rsqr in Hu, Hv. nra.
Qed.

(** The haversine argument [a] lies in [0, 1] whatever the coordinates. *)
Lemma haversine_arg_bounds (lat1 lat2 dlon : R) :
  0 <= (sin (radians (lat2 - lat1) / 2)) ^ 2
       + (sin dlon) ^ 2 * cos (radians lat1) * cos (radians lat2) <= 1.
Proof.
  set (u := (radians lat1 + radians lat2) / 2).
  set (v := radians (lat2 - lat1) / 2).
  replace (radians lat1) with (u - v) by (unfold u, v, radians; field).
  replace (radians lat2) with (u + v) by (unfold u, v, radians; field).
  rewrite Rmult_assoc, cos_minus_plus.
  pose proof (sin2_cos2 u) as Hu. pose proof (sin2_cos2 v) as Hv.
  pose proof (sin2_cos2 dlon) as Hl.
  pose proof (Rle_0_sqr (sin u)). pose proof (Rle_0_sqr (cos u)).
  pose proof (Rle_0_sqr (sin v)). pose proof (Rle_0_sqr (cos v)).
  pose proof (Rle_0_sqr (sin dlon)). pose proof (Rle_0_sqr (cos dlon)).
  rewrite <-!Rsqr_pow2. nra.
Qed.

Lemma math_sqrt_unit (a : R) :
  0 <= a <= 1 → math_sqrt a = Ok (sqrt a) ∧ 0 <= sqrt a <= 1.
Proof.
  intros [Ha0 Ha1]. unfold math_sqrt. destruct (Rlt_dec a 0); [lra|].
  split; [done|]. split; [apply sqrt_pos|].
  rewrite <-sqrt_1. by apply sqrt_le_1_alt.
Qed.

Lemma math_asin_unit (x : R) : 0 <= x <= 1 → math_asin x = Ok (asin x).
Proof.
  intros [Hx0 Hx1]. unfold math_asin.
  destruct (Rlt_dec x (-1)); [lra|]. destruct (Rlt_dec 1 x); [lra|]. done.
Qed.

End Haversine.

(** ** The distance resolver *)

Section Distance.
Local Open Scope R_scope.

Lemma radians_minus (x y : R) : radians (x - y) = radians x - radians y.
Proof. unfold radians. ring. Qed.

(** Without a record the resolver returns, and returns the haversine
    distance of the specification. *)
Lemma distance_haversine (self : Airline.t) (origin destination : Airport.t) :
  Airport.distances origin !! Airport.iata_code destination = None →
  Airline._distance self origin destination
  = Ok (VFloat (haversine_spec origin destination)).
Proof.
  intros Hnone. unfold Airline._distance. rewrite Hnone. cbv zeta.
  unfold math_pow2.
  pose proof (haversine_arg_bounds (Airport.latitude origin)
                (Airport.latitude destination)
                (radians (Airport.longitude destination
                          - Airport.longitude origin) / 2)) as Ha.
  destruct (math_sqrt_unit _ Ha) as [-> Hroot].
  unfold mbind, res_mbind, res_bind; cbv beta iota.
  rewrite (math_asin_unit _ Hroot).
  unfold haversine_spec, EarthRadiusMi. cbv zeta.
  rewrite <-!radians_minus, !Rsqr_pow2.
  do 6 f_equal. ring.
Qed.

(** An airport without a record for itself is at distance 0.0 from
    itself. *)
Lemma distance_same_airport (self : Airline.t) (X : Airport.t) :
  Airport.distances X !! Airport.iata_code X = None →
  Airline._distance self X X = Ok (VFloat 0).
Proof.
  intros Hnone. rewrite distance_haversine by done.
  unfold haversine_spec. cbv zeta. do 2 f_equal.
  rewrite !Rminus_diag.
  replace (0 / 2) with 0 by field.
  rewrite sin_0, Rsqr_0, Rmult_0_r, Rplus_0_l, sqrt_0, asin_0. lra.
Qed.

(** With a record the resolver never looks at the coordinates. *)
Lemma distance_recorded (self : Airline.t) (origin destination : Airport.t)
    (rec : DistanceRecord.t) :
  Airport.distances origin !! Airport.iata_code destination = Some rec →
  Airline._distance self origin destination
  = Ok (py_or (DistanceRecord.distance rec) (DistanceRecord.old_distance rec)).
Proof. intros Hrec. unfold Airline._distance. by rewrite Hrec. Qed.

End Distance.

(** ** The segment calculator: points, bonus points, the zero case *)

Section Examples.
Local Open Scope R_scope.

Lemma Partner_YYZ_YVR_distance :
  Airline._distance Partner YYZ YVR = Ok (VNum (NInt 2080)).
Proof. reflexivity. Qed.

Lemma Partner_M_rate : resolve_rate Partner "M" Flex = VNum (NFloat (1 / 3)).
Proof.
  unfold resolve_rate, py_or, dict_get. simpl Airline.earning_rates.
  rewrite lookup_insert_eq. simpl.
  destruct (Req_dec_T (1 / 3) 0); [lra|reflexivity].
Qed.

End Examples.





(** C6: when the resolved distance is zero, [calculate] does not raise:
    it returns a calculation that carries the (zero) distance and has 0 in
    every other field, the two rates and the bonus factor included. *)
Theorem zero_distance_all_zero (self : Airline.t) (origin destination : Airport.t)
    (fare_brand : FareBrand.t) (fare_class ticket_number : string)
    (aeroplan_status : AeroplanStatus.t) (n : num) :
  Airline._distance self origin destination = Ok (VNum n) →
  num_val n = 0%R →
  Airline.calculate self origin destination fare_brand fare_class
      ticket_number aeroplan_status
  = Ok {| distance := VNum n; app := VInt 0; app_earning_rate := VInt 0;
          app_bonus_factor := VInt 0; app_bonus := VInt 0; sqm := VInt 0;
          sqm_earning_rate := VInt 0 |}.
Proof. apply calculate_zero_distance. Qed.

(** A segment from Vancouver to Vancouver: distance 0.0, nothing earned. *)
Lemma zero_distance_all_zero_witness :
  Airline.calculate Partner YVR YVR Flex "M" "014" Status25K
  = Ok {| distance := VFloat 0; app := VInt 0; app_earning_rate := VInt 0;
          app_bonus_factor := VInt 0; app_bonus := VInt 0; sqm := VInt 0;
          sqm_earning_rate := VInt 0 |}.
Proof.
  apply (zero_distance_all_zero Partner YVR YVR Flex "M" "014" Status25K
           (NFloat 0)).
  - apply distance_same_airport. reflexivity.
  - reflexivity.
Defined.

(** ** The earning-rate lookup *)

(** C3, as the code has it: the value under the fare-class key is the
    rate when that key is present and its value is truthy (a nonzero
    number); when the key is absent, or present with a falsy value such as
    0, the value under the fare-brand name is the rate; and when that key
    is absent too the rate is 0. *)
Theorem rate_resolution (self : Airline.t) (fare_class : string)
    (fare_brand : FareBrand.t) :
  let rates := Airline.earning_rates self in
  let by_brand := default (VInt 0) (rates !! FareBrand.name fare_brand) in
  (∀ v, rates !! fare_class = Some v → py_truthy v = true →
        resolve_rate self fare_class fare_brand = v)
  ∧ (∀ v, rates !! fare_class = Some v → py_truthy v = false →
        resolve_rate self fare_class fare_brand = by_brand)
  ∧ (rates !! fare_class = None →
        resolve_rate self fare_class fare_brand = by_brand)
  ∧ (∀ w, rates !! FareBrand.name fare_brand = Some w → by_brand = w)
  ∧ (rates !! FareBrand.name fare_brand = None → by_brand = VInt 0).
Proof.
  intros rates by_brand. unfold resolve_rate, py_or, dict_get. fold rates.
  repeat split.
  - intros v -> Hv. simpl. by rewrite Hv.
  - intros v -> Hv. simpl. by rewrite Hv.
  - by intros ->.
  - unfold by_brand. by intros w ->.
  - unfold by_brand. by intros ->.
Qed.

(** On the sample partner: "M" is present with a nonzero rate and wins
    over the brand; "Y" is present with rate 0 and the brand's rate is
    used; "Z" is absent and the brand's rate is used. *)
Lemma rate_resolution_witness :
  resolve_rate Partner "M" Flex = VFloat (1 / 3)
  ∧ resolve_rate Partner "Y" Flex = VInt 1
  ∧ resolve_rate Partner "Z" Flex = VInt 1.
Proof.
  destruct (rate_resolution Partner "M" Flex) as (HM & _).
  destruct (rate_resolution Partner "Y" Flex) as (_ & HY & _).
  destruct (rate_resolution Partner "Z" Flex) as (_ & _ & HZ & _).
  split; [|split].
  - apply HM; [reflexivity|]. simpl.
    destruct (Req_dec_T (1 / 3) 0) as [H0|_]; [|reflexivity].
    exfalso. revert H0. apply Rgt_not_eq. lra.
  - rewrite (HY (VInt 0)); reflexivity.
  - rewrite HZ; reflexivity.
Defined.

(** C3 as stated fails: the partner's table holds rate 0 under "Y", yet
    the resolved rate for fare class "Y" with brand Flex is the brand's
    rate 1. *)
Lemma zero_rate_falls_back_to_brand :
  Airline.earning_rates Partner !! "Y" = Some (VInt 0)
  ∧ resolve_rate Partner "Y" Flex = VInt 1
  ∧ ¬ rate_lookup_claim Partner "Y" Flex.
Proof.
  split; [reflexivity|]. split; [reflexivity|].
  unfold rate_lookup_claim.
  change (resolve_rate Partner "Y" Flex) with (VInt 1).
  change (resolve_rate_spec Partner "Y" Flex) with (VInt 0).
  unfold VInt. intros [=].
Qed.

(** ** The distance resolver: recorded distances *)

(** C4, as the code has it: when the origin holds a record for the
    destination, the resolver returns the record's current distance
    whenever it is present and nonzero, and the legacy distance when the
    current one is absent or zero.  The coordinates are not consulted:
    the result is the same for any two airports with this record. *)
Theorem recorded_distance_precedence (self : Airline.t)
    (origin destination : Airport.t) (rec : DistanceRecord.t) :
  Airport.distances origin !! Airport.iata_code destination = Some rec →
  (∀ n, DistanceRecord.distance rec = VNum n → num_val n ≠ 0%R →
        Airline._distance self origin destination = Ok (VNum n))
  ∧ (DistanceRecord.distance rec = VNone →
        Airline._distance self origin destination
        = Ok (DistanceRecord.old_distance rec))
  ∧ (∀ n, DistanceRecord.distance rec = VNum n → num_val n = 0%R →
        Airline._distance self origin destination
        = Ok (DistanceRecord.old_distance rec))
  ∧ (∀ origin' destination',
        Airport.distances origin' !! Airport.iata_code destination' = Some rec →
        Airline._distance self origin' destination'
        = Airline._distance self origin destination).
Proof.
  intros Hrec. rewrite (distance_recorded _ _ _ _ Hrec). unfold py_or.
  repeat split.
  - intros n -> Hn. simpl. apply num_truthy_true in Hn. by rewrite Hn.
  - by intros ->.
  - intros n -> Hn. simpl. apply num_truthy_false in Hn. by rewrite Hn.
  - intros origin' destination' Hrec'. by rewrite (distance_recorded _ _ _ _ Hrec').
Qed.

(** Toronto to Vancouver has both distances recorded and resolves to the
    current one; Toronto to London has only the legacy one. *)
Lemma recorded_distance_precedence_witness :
  Airline._distance Partner YYZ YVR = Ok (VInt 2080)
  ∧ Airline._distance Partner YYZ
      {| Airport.iata_code := "LHR"; Airport.latitude := 51.47;
         Airport.longitude := (-0.45); Airport.distances := ∅ |}
    = Ok (VInt 3545).
Proof.
  split.
  - destruct (recorded_distance_precedence Partner YYZ YVR
                (DistanceRecord.mk "YVR" (VInt 2080) (VInt 2085)) eq_refl)
      as (Hcurrent & _).
    apply Hcurrent; [reflexivity|].
    simpl. apply not_0_IZR. discriminate.
  - destruct (recorded_distance_precedence Partner YYZ
                {| Airport.iata_code := "LHR"; Airport.latitude := 51.47;
                   Airport.longitude := (-0.45); Airport.distances := ∅ |}
                (DistanceRecord.mk "LHR" VNone (VInt 3545)) eq_refl)
      as (_ & Hlegacy & _).
    apply Hlegacy. reflexivity.
Defined.

(** C4 as stated fails: Toronto's record for the island airport has the
    current distance 0 present, and the resolver returns the legacy
    distance 12. *)
Lemma recorded_zero_distance_skipped :
  Airport.distances YYZ !! Airport.iata_code YTZ
    = Some (DistanceRecord.mk "YTZ" (VInt 0) (VInt 12))
  ∧ Airline._distance Partner YYZ YTZ = Ok (VInt 12)
  ∧ ¬ recorded_distance_claim Partner YYZ YTZ.
Proof.
  split; [reflexivity|]. split; [reflexivity|].
  intros Hclaim.
  destruct (Hclaim (DistanceRecord.mk "YTZ" (VInt 0) (VInt 12)) eq_refl)
    as [Hpresent _].
  assert (Airline._distance Partner YYZ YTZ = Ok (VInt 0)) as Hzero
    by (apply Hpresent; discriminate).
  change (Airline._distance Partner YYZ YTZ) with (@Ok pyval (VInt 12)) in Hzero.
  unfold VInt in Hzero. by injection Hzero.
Qed.

(** C7: Toronto's record for Ottawa has neither distance.  The resolver
    returns [None] for the pair, where the claim (and the resolver's own
    docstring) ask for the haversine distance. *)
Theorem empty_record_resolves_to_None :
  Airport.distances YYZ !! Airport.iata_code YOW
    = Some (DistanceRecord.mk "YOW" VNone VNone)
  ∧ Airline._distance Partner YYZ YOW = Ok VNone
  ∧ ¬ empty_record_claim Partner YYZ YOW.
Proof.
  split; [reflexivity|]. split; [reflexivity|].
  intros Hclaim.
  specialize (Hclaim (DistanceRecord.mk "YOW" VNone VNone) eq_refl eq_refl eq_refl).
  change (Airline._distance Partner YYZ YOW) with (@Ok pyval VNone) in Hclaim.
  discriminate Hclaim.
Qed.

(** ** The distance resolver: the haversine branch *)



(** ** Totality on the declared data model *)

Lemma resolve_rate_num (self : Airline.t) (fare_class : string)
    (fare_brand : FareBrand.t) :
  Airline_wf self → ∃ r, resolve_rate self fare_class fare_brand = VNum r.
Proof.
  intros Hwf. unfold resolve_rate, py_or, dict_get.
  assert (∃ w, default (VInt 0)
                 (Airline.earning_rates self !! FareBrand.name fare_brand)
               = VNum w) as [w Hw].
  { destruct (_ !! FareBrand.name fare_brand) as [v|] eqn:Hbrand; simpl.
    - apply Hwf in Hbrand. destruct v; try discriminate. by eexists.
    - by eexists. }
  destruct (_ !! fare_class) as [v|] eqn:Hclass; simpl; [|by eexists].
  apply Hwf in Hclass. destruct v as [|r|]; try discriminate. simpl.
  destruct (num_truthy r); by eexists.
Qed.

Lemma distance_total (self : Airline.t) (origin destination : Airport.t) :
  Airport_wf origin →
  ∃ v, Airline._distance self origin destination = Ok v ∧ is_opt_num v = true.
Proof.
  intros Hwf.
  destruct (Airport.distances origin !! Airport.iata_code destination)
    as [rec|] eqn:Hrec.
  - rewrite (distance_recorded _ _ _ _ Hrec). eexists. split; [done|].
    apply Hwf in Hrec as [Hcur Hold]. unfold py_or.
    by destruct (py_truthy _).
  - rewrite (distance_haversine _ _ _ Hrec). by eexists.
Qed.

(** In exact arithmetic, on the declared data model (real coordinates,
    recorded distances that are numbers or absent, a numeric rate table,
    any fare class and brand, any status tier) neither the distance
    resolver nor the segment calculator raises: both return a value. *)
Lemma total_in_exact_arithmetic (self : Airline.t)
    (origin destination : Airport.t) (fare_brand : FareBrand.t)
    (fare_class ticket_number : string) (aeroplan_status : AeroplanStatus.t) :
  Airport_wf origin →
  Airline_wf self →
  (∃ v, Airline._distance self origin destination = Ok v)
  ∧ (∃ c, Airline.calculate self origin destination fare_brand fare_class
            ticket_number aeroplan_status = Ok c).
Proof.
  intros Hairport Hairline.
  destruct (distance_total self origin destination Hairport) as (v & Hv & Hnum).
  split; [by eexists|].
  destruct (resolve_rate_num self fare_class fare_brand Hairline) as [r Hr].
  destruct v as [|d|]; [|destruct (Req_dec_T (num_val d) 0) as [Hd|Hd]|done].
  - unfold Airline.calculate. rewrite Hv. res_step. by eexists.
  - eexists. by eapply calculate_zero_distance.
  - eexists. by eapply calculate_travelled.
Qed.

Lemma YYZ_wf : Airport_wf YYZ.
Proof.
  unfold Airport_wf, YYZ. simpl.
  repeat (apply map_Forall_insert_2; [by split|]).
  apply map_Forall_empty.
Qed.

Lemma Partner_wf : Airline_wf Partner.
Proof.
  unfold Airline_wf, Partner. simpl.
  repeat (apply map_Forall_insert_2; [reflexivity|]).
  apply map_Forall_empty.
Qed.

(** Toronto to Ottawa, whose record holds no distance, on the partner. *)
Lemma total_in_exact_arithmetic_YYZ_YOW :
  (∃ v, Airline._distance Partner YYZ YOW = Ok v)
  ∧ (∃ c, Airline.calculate Partner YYZ YOW Flex "M" "014" Status25K = Ok c).
Proof.
  exact (total_in_exact_arithmetic Partner YYZ YOW Flex "M" "014"
           Status25K YYZ_wf Partner_wf).
Qed.



(** Outside the data model the calculator does raise: the shipped Air
    Canada table maps region names to nested tables, and a fare class
    that spells a region name resolves to a dict. *)
Lemma AirCanada_region_key_raises :
  Airline.calculate AirCanada YYZ YVR Flex "Domestic" "014" Status25K
  = Raise TypeError.
Proof. reflexivity. Qed.

(** ** Airline equality *)

(** C9, as the code has it: between two Airline values [__eq__] returns
    true exactly when the identity keys match, whatever the other fields;
    handed a value without an attribute [id] it raises AttributeError; and
    handed an instance of another class that carries an [id] it compares
    that attribute. *)
Theorem airline_eq_by_id (self : Airline.t) :
  (∀ b, ∃ r, Airline.__eq__ self (Airline.OAirline b) = Ok r
             ∧ (r = true ↔ Airline.id self = Airline.id b))
  ∧ (∀ v, Airline.__eq__ self (Airline.OPlain v) = Raise AttributeError)
  ∧ (∀ attrs, attrs !! "id" = None →
       Airline.__eq__ self (Airline.OInstance attrs) = Raise AttributeError)
  ∧ (∀ attrs s, attrs !! "id" = Some (Airline.AStr s) →
       Airline.__eq__ self (Airline.OInstance attrs)
       = Ok (String.eqb (Airline.id self) s)).
Proof.
  repeat split.
  - intros b. eexists. split; [reflexivity|]. simpl. apply String.eqb_eq.
  - intros attrs Hid. unfold Airline.__eq__. simpl. by rewrite Hid.
  - intros attrs s Hid. unfold Airline.__eq__. simpl. by rewrite Hid.
Qed.

(** The partner equals its renamed copy (same key, every other field
    different), differs from Air Canada, and cannot be compared with an
    object that has no [id]. *)
Lemma airline_eq_by_id_witness :
  Airline.__eq__ Partner (Airline.OAirline PartnerRenamed) = Ok true
  ∧ Airline.__eq__ Partner (Airline.OAirline AirCanada) = Ok false
  ∧ Airline.__eq__ Partner (Airline.OInstance ∅) = Raise AttributeError.
Proof.
  destruct (airline_eq_by_id Partner) as (_ & _ & Hmissing & _).
  split; [reflexivity|]. split; [reflexivity|].
  apply Hmissing. reflexivity.
Defined.

(** C9 as stated fails: comparing an airline with [None] raises
    AttributeError instead of returning "not equal". *)
Lemma eq_None_raises :
  Airline.__eq__ Partner (Airline.OPlain VNone) = Raise AttributeError
  ∧ ¬ eq_claim Partner (Airline.OPlain VNone).
Proof.
  split; [reflexivity|]. unfold eq_claim.
  change (Airline.__eq__ Partner (Airline.OPlain VNone))
    with (@Raise bool AttributeError).
  discriminate.
Qed.

(** ** The shipped Air Canada table *)

Section AirCanadaRates.
Local Open Scope R_scope.

Lemma AirCanada_lookup (k : string) :
  ¬ is_region_key k → Airline.earning_rates AirCanada !! k = None.
Proof.
  unfold is_region_key. intros Hk. simpl.
  rewrite !lookup_insert_ne by (intros <-; tauto).
  apply lookup_empty.
Qed.

Lemma AirCanada_rate (fare_class : string) (fare_brand : FareBrand.t) :
  ¬ is_region_key fare_class →
  ¬ is_region_key (FareBrand.name fare_brand) →
  resolve_rate AirCanada fare_class fare_brand = VInt 0.
Proof.
  intros Hclass Hbrand. unfold resolve_rate, py_or, dict_get.
  by rewrite !AirCanada_lookup.
Qed.

End AirCanadaRates.

(** C10: on the shipped Air Canada airline the flat lookup resolves to
    rate 0 for every fare class and fare brand whose names are not one of
    the region keys "Domestic", "Transborder", "International"; so, with a
    nonzero resolved distance, points and status miles are the truncation
    of max(0, floor), which is the truncated floor of the status tier for
    a floor that is not negative (0 when the floor is 0). *)
Theorem air_canada_earns_floor_only (origin destination : Airport.t)
    (fare_brand : FareBrand.t) (fare_class ticket_number : string)
    (aeroplan_status : AeroplanStatus.t) (d : num) :
  ¬ is_region_key fare_class →
  ¬ is_region_key (FareBrand.name fare_brand) →
  let floor := num_val (AeroplanStatus.min_earning_value aeroplan_status) in
  resolve_rate AirCanada fare_class fare_brand = VInt 0
  ∧ (Airline._distance AirCanada origin destination = Ok (VNum d) →
     num_val d ≠ 0%R →
     ∃ c, Airline.calculate AirCanada origin destination fare_brand fare_class
            ticket_number aeroplan_status = Ok c
          ∧ app_earning_rate c = VInt 0
          ∧ sqm_earning_rate c = VInt 0
          ∧ app c = VInt (Rtrunc (Rmax 0 floor))
          ∧ sqm c = VInt (Rtrunc (Rmax 0 floor))
          ∧ ((0 <= floor)%R →
               app c = VInt (Rtrunc floor) ∧ sqm c = VInt (Rtrunc floor))
          ∧ (floor = 0%R → app c = VInt 0 ∧ sqm c = VInt 0)).
Proof.
  intros Hclass Hbrand floor.
  pose proof (AirCanada_rate fare_class fare_brand Hclass Hbrand) as Hrate.
  split; [done|]. intros Hdist Hd.
  eexists. split; [by eapply calculate_travelled|]. simpl.
  unfold points_real. simpl. rewrite Rmult_0_r. fold floor.
  do 4 (split; [done|]). split.
  - intros Hfloor. by rewrite Rmax_right.
  - intros ->. rewrite Rmax_left by lra. by rewrite (Rtrunc_IZR 0).
Qed.

(** Toronto to Vancouver on Air Canada, Flex fare, class "M", 25K
    status: 2080 recorded miles earn the floor of 250 and nothing more. *)
Lemma air_canada_earns_floor_only_witness :
  resolve_rate AirCanada "M" Flex = VInt 0
  ∧ ∃ c, Airline.calculate AirCanada YYZ YVR Flex "M" "014" Status25K = Ok c
         ∧ app c = VInt 250 ∧ sqm c = VInt 250.
Proof.
  destruct (air_canada_earns_floor_only YYZ YVR Flex "M" "014" Status25K
              (NInt 2080)) as (Hrate & Hcalc).
  - unfold is_region_key. intros [H|[H|H]]; discriminate H.
  - unfold is_region_key. intros [H|[H|H]]; discriminate H.
  - split; [exact Hrate|].
    destruct Hcalc as (c & Hc & _ & _ & _ & _ & Hfloor & _).
    + reflexivity.
    + simpl. apply not_0_IZR. discriminate.
    + exists c. split; [exact Hc|].
      destruct Hfloor as [Happ Hsqm]; [simpl; lra|].
      rewrite Happ, Hsqm. simpl. by rewrite (Rtrunc_IZR 250).
Defined.

(** ** Further properties of the distance resolver *)

Section MoreDistance.
Local Open Scope R_scope.






End MoreDistance.





(** ** Further properties of the segment calculator *)

Section MoreCalculate.
Local Open Scope R_scope.

Lemma Rtrunc_mono (x y : R) : x <= y → (Rtrunc x <= Rtrunc y)%Z.
Proof.
  intros Hxy.
  destruct (Rle_dec 0 x) as [Hx|Hx], (Rle_dec 0 y) as [Hy|Hy]; try lra.
  - pose proof (Rtrunc_nonneg x Hx). pose proof (Rtrunc_nonneg y Hy).
    apply Z.lt_succ_r, lt_IZR. rewrite succ_IZR. lra.
  - pose proof (Rtrunc_neg x ltac:(lra)). pose proof (Rtrunc_nonneg y Hy).
    assert (Rtrunc x < 1)%Z by (apply lt_IZR; lra).
    assert (-1 < Rtrunc y)%Z by (apply lt_IZR; lra).
    lia.
  - pose proof (Rtrunc_neg x ltac:(lra)). pose proof (Rtrunc_neg y ltac:(lra)).
    apply Z.lt_succ_r, lt_IZR. rewrite succ_IZR. lra.
Qed.

Lemma res_bind_Ok {A B : Type} (m : res A) (f : A → res B) (b : B) :
  m ≫= f = Ok b → ∃ a, m = Ok a ∧ f a = Ok b.
Proof. destruct m as [a|e]; [by exists a|discriminate]. Qed.

Lemma py_int_Ok (x v : pyval) : py_int x = Ok v → ∃ z, v = VInt z.
Proof. destruct x; try discriminate. intros [= <-]. by eexists. Qed.

(** Whatever [calculate] returns carries the resolver's value as its
    distance and integers as points, bonus points and status miles. *)
Lemma calculate_Ok_fields (self : Airline.t) (origin destination : Airport.t)
    (fare_brand : FareBrand.t) (fare_class ticket_number : string)
    (aeroplan_status : AeroplanStatus.t) (c : SegmentCalculation) :
  Airline.calculate self origin destination fare_brand fare_class
      ticket_number aeroplan_status = Ok c →
  Airline._distance self origin destination = Ok (distance c)
  ∧ (∃ a b s, app c = VInt a ∧ app_bonus c = VInt b ∧ sqm c = VInt s).
Proof.
  unfold Airline.calculate. intros H.
  apply res_bind_Ok in H as (dv & Hdist & H). rewrite Hdist.
  destruct (py_truthy dv); simpl in H.
  - apply res_bind_Ok in H as (p & _ & H).
    apply res_bind_Ok in H as (m & _ & H).
    apply res_bind_Ok in H as (bn & _ & H).
    apply res_bind_Ok in H as (q & _ & H).
    apply res_bind_Ok in H as (pi & Hpi & H).
    apply res_bind_Ok in H as (bi & Hbi & H).
    apply res_bind_Ok in H as (qi & Hqi & H).
    injection H as <-. simpl. split; [done|].
    apply py_int_Ok in Hpi as [a ->]. apply py_int_Ok in Hbi as [b ->].
    apply py_int_Ok in Hqi as [s ->]. by eexists _, _, _.
  - injection H as <-. simpl. split; [done|]. by eexists _, _, _.
Qed.

End MoreCalculate.





(** X5: on a positive distance with a bonus factor that is not negative,
    the bonus points never exceed the truncation of distance * bonus
    factor, however high the floor lifts the points; they are not
    negative when the floor is not; and they are 0, like the points, for
    an airline that does not earn points. *)
Theorem bonus_capped_by_distance (self : Airline.t) (origin destination : Airport.t)
    (fare_brand : FareBrand.t) (fare_class ticket_number : string)
    (aeroplan_status : AeroplanStatus.t) (d r : num) :
  Airline._distance self origin destination = Ok (VNum d) →
  (0 < num_val d)%R →
  resolve_rate self fare_class fare_brand = VNum r →
  let factor := num_val (AeroplanStatus.bonus_factor aeroplan_status) in
  let floor := num_val (AeroplanStatus.min_earning_value aeroplan_status) in
  (0 <= factor)%R →
  ∃ c z,
    Airline.calculate self origin destination fare_brand fare_class
        ticket_number aeroplan_status = Ok c
    ∧ app_bonus c = VInt z
    ∧ (z <= Rtrunc (num_val d * factor))%Z
    ∧ ((0 <= floor)%R → (0 <= z)%Z)
    ∧ (Airline.earns_app self = false → app c = VInt 0 ∧ z = 0%Z).
Proof.
  intros Hdist Hd Hrate factor floor Hfactor.
  eexists _, _. split; [eapply calculate_travelled; [done|lra|done]|].
  split; [done|]. simpl. fold factor. unfold points_real. fold floor.
  split; [|split].
  - apply Rtrunc_mono. apply Rmult_le_compat_r; [done|apply Rmin_r].
  - intros Hfloor. apply Z.le_trans with (Rtrunc 0).
    { by rewrite (Rtrunc_IZR 0). }
    apply Rtrunc_mono.
    apply Rmult_le_pos; [|done]. apply Rmin_glb; [|lra].
    destruct (Airline.earns_app self); [|lra].
    eapply Rle_trans; [exact Hfloor|apply Rmax_r].
  - intros ->. rewrite Rmin_left by lra. rewrite Rmult_0_l.
    by rewrite (Rtrunc_IZR 0).
Qed.

Lemma bonus_capped_by_distance_witness :
  ∃ c z, Airline.calculate Partner YYZ YVR Flex "M" "014" Status25K = Ok c
         ∧ app_bonus c = VInt z ∧ (0 <= z <= 520)%Z.
Proof.
  destruct (bonus_capped_by_distance Partner YYZ YVR Flex "M" "014" Status25K
              (NInt 2080) (NFloat (1 / 3)))
    as (c & z & Hc & Hbonus & Hcap & Hpos & _).
  - apply Partner_YYZ_YVR_distance.
  - simpl. lra.
  - apply Partner_M_rate.
  - simpl. lra.
  - exists c, z. split; [exact Hc|]. split; [exact Hbonus|]. split.
    + apply Hpos. simpl. lra.
    + simpl in Hcap.
      replace (Rtrunc (2080 * 0.25)) with 520%Z in Hcap; [exact Hcap|].
      symmetry. apply Rtrunc_unique_nonneg; lra.
Defined.

(** X6: whatever [calculate] returns, its distance field is the resolver's
    value as it is (a float is not truncated, [None] stays [None]) and its
    points, bonus points and status miles are integers. *)
Theorem calculation_fields (self : Airline.t) (origin destination : Airport.t)
    (fare_brand : FareBrand.t) (fare_class ticket_number : string)
    (aeroplan_status : AeroplanStatus.t) (c : SegmentCalculation) :
  Airline.calculate self origin destination fare_brand fare_class
      ticket_number aeroplan_status = Ok c →
  Airline._distance self origin destination = Ok (distance c)
  ∧ (∃ a b s, app c = VInt a ∧ app_bonus c = VInt b ∧ sqm c = VInt s).
Proof. apply calculate_Ok_fields. Qed.

Lemma calculation_fields_witness :
  Airline._distance Partner YYZ YOW = Ok VNone.
Proof.
  exact (proj1 (calculation_fields Partner YYZ YOW Flex "M" "014" Status25K
           {| distance := VNone; app := VInt 0; app_earning_rate := VInt 0;
              app_bonus_factor := VInt 0; app_bonus := VInt 0; sqm := VInt 0;
              sqm_earning_rate := VInt 0 |} eq_refl)).
Defined.

(** X7: when the record of a pair holds no usable distance (each of the
    two is [None] or zero), the calculator returns the all-zero
    calculation whose distance is the record's legacy value, [None]
    included; no rate is looked up. *)
Theorem unusable_record_zero_calculation (self : Airline.t)
    (origin destination : Airport.t) (fare_brand : FareBrand.t)
    (fare_class ticket_number : string) (aeroplan_status : AeroplanStatus.t)
    (rec : DistanceRecord.t) :
  Airport.distances origin !! Airport.iata_code destination = Some rec →
  py_truthy (DistanceRecord.distance rec) = false →
  py_truthy (DistanceRecord.old_distance rec) = false →
  Airline.calculate self origin destination fare_brand fare_class
      ticket_number aeroplan_status
  = Ok {| distance := DistanceRecord.old_distance rec; app := VInt 0;
          app_earning_rate := VInt 0; app_bonus_factor := VInt 0;
          app_bonus := VInt 0; sqm := VInt 0; sqm_earning_rate := VInt 0 |}.
Proof.
  intros Hrec Hcur Hold. unfold Airline.calculate.
  rewrite (distance_recorded _ _ _ _ Hrec). unfold py_or. rewrite Hcur.
  res_step. by rewrite Hold.
Qed.

Lemma unusable_record_zero_calculation_witness :
  Airline.calculate AirCanada YYZ YOW Flex "Domestic" "014" Status25K
  = Ok {| distance := VNone; app := VInt 0; app_earning_rate := VInt 0;
          app_bonus_factor := VInt 0; app_bonus := VInt 0; sqm := VInt 0;
          sqm_earning_rate := VInt 0 |}.
Proof.
  exact (unusable_record_zero_calculation AirCanada YYZ YOW Flex "Domestic"
           "014" Status25K (DistanceRecord.mk "YOW" VNone VNone)
           eq_refl eq_refl eq_refl).
Defined.

(** X8: when the rate resolves to something that is not a number (a
    nested table, [None]) on a segment with a nonzero distance, the
    calculator raises TypeError as soon as the airline earns points or
    status miles, and returns (with points and status miles 0) only for
    an airline that earns neither. *)
Theorem non_numeric_rate_raises (self : Airline.t) (origin destination : Airport.t)
    (fare_brand : FareBrand.t) (fare_class ticket_number : string)
    (aeroplan_status : AeroplanStatus.t) (d : num) :
  Airline._distance self origin destination = Ok (VNum d) →
  num_val d ≠ 0%R →
  is_num (resolve_rate self fare_class fare_brand) = false →
  (Airline.earns_app self || Airline.earns_sqm self = true →
     Airline.calculate self origin destination fare_brand fare_class
         ticket_number aeroplan_status = Raise TypeError)
  ∧ (Airline.earns_app self || Airline.earns_sqm self = false →
     ∃ c, Airline.calculate self origin destination fare_brand fare_class
            ticket_number aeroplan_status = Ok c
          ∧ app c = VInt 0 ∧ sqm c = VInt 0
          ∧ app_earning_rate c = resolve_rate self fare_class fare_brand).
Proof.
  intros Hdist Hd Hrate. apply num_truthy_true in Hd.
  unfold Airline.calculate. rewrite Hdist. res_step. rewrite Hd. simpl.
  fold (resolve_rate self fare_class fare_brand).
  destruct (resolve_rate self fare_class fare_brand) as [|r|t] eqn:Hr;
    try discriminate;
    destruct (Airline.earns_app self), (Airline.earns_sqm self);
    (split; [intros Hflag|intros Hflag]; try discriminate; res_step; try done);
    destruct (num_ltb d (NInt 0)); res_step; try done;
    eexists; (split; [reflexivity|]); by rewrite ?(Rtrunc_IZR 0).
Qed.

Lemma non_numeric_rate_raises_witness :
  Airline.calculate AirCanada YYZ YVR Flex "Domestic" "014" Status25K
  = Raise TypeError.
Proof.
  destruct (non_numeric_rate_raises AirCanada YYZ YVR Flex "Domestic" "014"
              Status25K (NInt 2080)) as [Hraise _].
  - reflexivity.
  - simpl. apply not_0_IZR. discriminate.
  - reflexivity.
  - apply Hraise. reflexivity.
Defined.

(** ** Positions in the catalog of airlines *)

Section Index.

Lemma airline_eq_id (item value : Airline.t) :
  airline_eq item value = Ok (String.eqb (Airline.id item) (Airline.id value)).
Proof. reflexivity. Qed.

Lemma airline_index_cons (item : Airline.t) (rest : list Airline.t)
    (value : Airline.t) :
  py_index airline_eq (item :: rest) value
  = if String.eqb (Airline.id item) (Airline.id value) then Ok 0%nat
    else i ← py_index airline_eq rest value; Ok (S i).
Proof. reflexivity. Qed.

Lemma airline_index_Ok (seq : list Airline.t) (value : Airline.t) (i : nat) :
  py_index airline_eq seq value = Ok i →
  (∃ item, seq !! i = Some item ∧ Airline.id item = Airline.id value)
  ∧ (∀ j other, (j < i)%nat → seq !! j = Some other →
       Airline.id other ≠ Airline.id value).
Proof.
  revert i. induction seq as [|item rest IH]; intros i; [discriminate|].
  rewrite airline_index_cons.
  destruct (String.eqb _ _) eqn:Hid.
  - intros [= <-]. split; [|lia]. exists item. split; [done|].
    by apply String.eqb_eq.
  - intros H. apply res_bind_Ok in H as (k & Hk & [= <-]).
    destruct (IH k Hk) as [Hfound Hfirst]. split; [done|].
    intros [|j] other Hj Hother.
    + injection Hother as <-. by apply String.eqb_neq.
    + apply (Hfirst j); [lia|done].
Qed.

Lemma airline_index_Raise (seq : list Airline.t) (value : Airline.t) :
  (∀ item, item ∈ seq → Airline.id item ≠ Airline.id value) →
  py_index airline_eq seq value = Raise ValueError.
Proof.
  induction seq as [|item rest IH]; intros Hnone; [done|].
  rewrite airline_index_cons.
  assert (String.eqb (Airline.id item) (Airline.id value) = false) as ->.
  { apply String.eqb_neq, Hnone. by left. }
  rewrite IH; [done|]. intros other Hother. apply Hnone. by right.
Qed.

Lemma airline_index_member (seq : list Airline.t) (value : Airline.t) :
  (∃ item, item ∈ seq ∧ Airline.id item = Airline.id value) →
  ∃ i, py_index airline_eq seq value = Ok i.
Proof.
  induction seq as [|item rest IH]; intros (other & Hin & Hid).
  - by apply elem_of_nil in Hin.
  - rewrite airline_index_cons.
    destruct (String.eqb _ _) eqn:Heq; [by eexists|].
    apply elem_of_cons in Hin as [->|Hin].
    + apply String.eqb_neq in Heq. done.
    + destruct IH as [i ->]; [by exists other|]. by eexists.
Qed.

End Index.

(** X9: when [index] finds an airline, the position it returns holds an
    airline with the same identity key, and no earlier position does: of
    several airlines sharing a key the first is the one found. *)
Theorem airline_index_first_match (seq : list Airline.t) (value : Airline.t)
    (i : nat) :
  py_index airline_eq seq value = Ok i →
  (∃ item, seq !! i = Some item ∧ Airline.id item = Airline.id value)
  ∧ (∀ j other, (j < i)%nat → seq !! j = Some other →
       Airline.id other ≠ Airline.id value).
Proof. apply airline_index_Ok. Qed.

(** The renamed copy of the partner is found where the partner is. *)
Lemma airline_index_first_match_witness :
  ∃ item, [AirCanada; Partner; PartnerRenamed] !! 1%nat = Some item
          ∧ Airline.id item = Airline.id PartnerRenamed.
Proof.
  exact (proj1 (airline_index_first_match [AirCanada; Partner; PartnerRenamed]
                  PartnerRenamed 1 eq_refl)).
Defined.

(** X10: [index] raises ValueError exactly when no airline of the
    sequence has the identity key looked for; otherwise it returns a
    position. *)
Theorem airline_index_raises_iff_absent (seq : list Airline.t)
    (value : Airline.t) :
  (py_index airline_eq seq value = Raise ValueError
   ↔ ∀ item, item ∈ seq → Airline.id item ≠ Airline.id value)
  ∧ ((∃ i, py_index airline_eq seq value = Ok i)
     ↔ ∃ item, item ∈ seq ∧ Airline.id item = Airline.id value).
Proof.
  split; split.
  - intros Hraise item Hin Hid.
    destruct (airline_index_member seq value) as [i Hi]; [by exists item|].
    congruence.
  - apply airline_index_Raise.
  - intros [i Hi]. destruct (airline_index_Ok _ _ _ Hi) as [(item & Hitem & Hid) _].
    exists item. split; [|done]. by eapply list_elem_of_lookup_2.
  - apply airline_index_member.
Qed.

Lemma airline_index_raises_iff_absent_witness :
  py_index airline_eq [AirCanada; PartnerRenamed] Partner = Ok 1%nat
  ∧ py_index airline_eq [AirCanada] Partner = Raise ValueError.
Proof.
  split; [reflexivity|].
  apply (proj1 (airline_index_raises_iff_absent [AirCanada] Partner)).
  intros item Hin. apply list_elem_of_singleton in Hin as ->. discriminate.
Defined.

(** X11: in a sequence whose identity keys are pairwise distinct, the
    position of the airline stored at position i is i: taking an airline
    out of the catalog and looking it up again gives the same position. *)
Theorem airline_index_round_trip (seq : list Airline.t) (value : Airline.t)
    (i : nat) :
  NoDup (map Airline.id seq) →
  seq !! i = Some value →
  py_index airline_eq seq value = Ok i.
Proof.
  intros Hnodup Hi.
  destruct (airline_index_member seq value) as [k Hk].
  { exists value. split; [by eapply list_elem_of_lookup_2|done]. }
  rewrite Hk. f_equal.
  destruct (airline_index_Ok _ _ _ Hk) as [(item & Hitem & Hid) _].
  eapply NoDup_lookup; [exact Hnodup| |].
  - rewrite list_lookup_fmap, Hitem. simpl. by rewrite Hid.
  - by rewrite list_lookup_fmap, Hi.
Qed.

Lemma airline_index_round_trip_witness :
  py_index airline_eq (AIRLINES [Partner]) Partner = Ok 1%nat.
Proof.
  apply (airline_index_round_trip (AIRLINES [Partner]) Partner 1).
  - simpl. compute_done.
  - reflexivity.
Defined.

(** X12: whatever the partners are, the default airline sits at the
    default index of the catalog, and every segment whose airline has the
    key of Air Canada gets that index: an entry of the partner file that
    reused the key could not be told from Air Canada. *)
Theorem default_airline_index (partners : list Airline.t) (segment : Segment.t) :
  AIRLINES partners !! DEFAULT_AIRLINE_INDEX = Some DEFAULT_AIRLINE
  ∧ (Airline.id (Segment.airline segment) = Airline.id AirCanada →
     airline_index partners segment = Ok DEFAULT_AIRLINE_INDEX).
Proof.
  split; [done|]. intros Hid. unfold airline_index, AIRLINES.
  rewrite airline_index_cons, <-Hid, String.eqb_refl. done.
Qed.

Lemma default_airline_index_witness :
  airline_index [Partner]
    {| Segment.airline := AirCanada; Segment.origin := YYZ;
       Segment.destination := YVR; Segment.fare_class := "M";
       Segment.fare_brand := Flex |}
  = Ok DEFAULT_AIRLINE_INDEX.
Proof.
  apply (default_airline_index [Partner]). reflexivity.
Defined.

(** ** The fare-class select box *)

Section FareClassIndex.

Lemma str_in_cons (item : string) (rest : list string) (value : string) :
  py_in py_str_eq (item :: rest) value
  = if String.eqb item value then Ok true else py_in py_str_eq rest value.
Proof. reflexivity. Qed.

Lemma str_index_cons (item : string) (rest : list string) (value : string) :
  py_index py_str_eq (item :: rest) value
  = if String.eqb item value then Ok 0%nat
    else i ← py_index py_str_eq rest value; Ok (S i).
Proof. reflexivity. Qed.

Lemma str_in_spec (seq : list string) (value : string) :
  py_in py_str_eq seq value = Ok (bool_decide (value ∈ seq)).
Proof.
  induction seq as [|item rest IH]; [done|].
  rewrite str_in_cons.
  destruct (String.eqb item value) eqn:Heq.
  - apply String.eqb_eq in Heq as ->. rewrite bool_decide_eq_true_2; [done|by left].
  - rewrite IH. f_equal. apply String.eqb_neq in Heq.
    apply bool_decide_ext. rewrite elem_of_cons.
    split; [by right|]. intros [Hv|Hrest]; [by subst|done].
Qed.

Lemma str_index_spec (seq : list string) (value : string) :
  value ∈ seq →
  ∃ i, py_index py_str_eq seq value = Ok i
       ∧ seq !! i = Some value
       ∧ (∀ j, (j < i)%nat → seq !! j ≠ Some value).
Proof.
  induction seq as [|item rest IH]; intros Hin; [by apply elem_of_nil in Hin|].
  rewrite str_index_cons.
  destruct (String.eqb item value) eqn:Heq.
  - apply String.eqb_eq in Heq as ->. exists 0%nat.
    split; [done|]. split; [done|]. intros j Hj. lia.
  - apply String.eqb_neq in Heq.
    apply elem_of_cons in Hin as [->|Hin]; [done|].
    destruct (IH Hin) as (i & -> & Hi & Hfirst). exists (S i).
    split; [done|]. split; [done|]. intros [|j] Hj; simpl; [congruence|].
    apply Hfirst. lia.
Qed.

End FareClassIndex.

(** X13: the index handed to the fare-class select box never raises: it
    is the first position of the segment's fare class among the classes of
    its fare brand when the class is one of them, and 0 otherwise, so it
    points at an existing class whenever the brand has any. *)
Theorem fare_class_index_guarded (segment : Segment.t) :
  let fare_classes := FareBrand.fare_classes (Segment.fare_brand segment) in
  let fare_class := Segment.fare_class segment in
  ∃ i, fare_class_index segment = Ok i
       ∧ (fare_class ∈ fare_classes →
            fare_classes !! i = Some fare_class
            ∧ ∀ j, (j < i)%nat → fare_classes !! j ≠ Some fare_class)
       ∧ (fare_class ∉ fare_classes → i = 0%nat)
       ∧ (fare_classes ≠ [] → (i < length fare_classes)%nat).
Proof.
  intros fare_classes fare_class. unfold fare_class_index.
  fold fare_classes fare_class. rewrite str_in_spec. res_step.
  destruct (decide (fare_class ∈ fare_classes)) as [Hin|Hout].
  - rewrite bool_decide_eq_true_2 by done.
    destruct (str_index_spec _ _ Hin) as (i & -> & Hi & Hfirst).
    exists i. split; [done|]. split; [done|]. split; [done|].
    intros _. by eapply lookup_lt_Some.
  - rewrite bool_decide_eq_false_2 by done.
    exists 0%nat. split; [done|]. split; [done|]. split; [done|].
    intros Hne. destruct fare_classes; [done|simpl; lia].
Qed.

(** Class "H" is the third class of Flex; class "Y" is not a Flex class
    and falls back to the first. *)
Lemma fare_class_index_guarded_witness :
  fare_class_index {| Segment.airline := AirCanada; Segment.origin := YYZ;
                      Segment.destination := YVR; Segment.fare_class := "H";
                      Segment.fare_brand := Flex |} = Ok 2%nat
  ∧ fare_class_index {| Segment.airline := AirCanada; Segment.origin := YYZ;
                        Segment.destination := YVR; Segment.fare_class := "Y";
                        Segment.fare_brand := Flex |} = Ok 0%nat.
Proof.
  split.
  - reflexivity.
  - destruct (fare_class_index_guarded
                {| Segment.airline := AirCanada; Segment.origin := YYZ;
                   Segment.destination := YVR; Segment.fare_class := "Y";
                   Segment.fare_brand := Flex |}) as (i & Hi & _ & Hout & _).
    rewrite Hi. f_equal. apply Hout. simpl. compute_done.
Defined.

(** ** The "Add Segment" button *)

Section AddSegment.

Lemma return_leg_involutive (s : Segment.t) : return_leg (return_leg s) = s.
Proof. by destruct s. Qed.

Lemma add_segment_nonempty (new_segment ref_segment : Segment.t)
    (segments : list Segment.t) :
  last segments = Some ref_segment →
  add_segment new_segment segments = segments ++ [return_leg ref_segment].
Proof. intros Hlast. unfold add_segment. by rewrite Hlast. Qed.

End AddSegment.

(** X14: "Add Segment" appends exactly one segment and leaves the
    existing ones as they are; on an empty itinerary the new segment is
    the fresh one, otherwise it is the return leg of the last segment:
    airports swapped, airline, fare class and fare brand kept. *)
Theorem add_segment_appends (new_segment : Segment.t) (segments : list Segment.t) :
  length (add_segment new_segment segments) = S (length segments)
  ∧ take (length segments) (add_segment new_segment segments) = segments
  ∧ (segments = [] → add_segment new_segment segments = [new_segment])
  ∧ (∀ ref_segment, last segments = Some ref_segment →
       last (add_segment new_segment segments) = Some (return_leg ref_segment)
       ∧ Segment.origin (return_leg ref_segment) = Segment.destination ref_segment
       ∧ Segment.destination (return_leg ref_segment) = Segment.origin ref_segment).
Proof.
  assert (∃ x, add_segment new_segment segments = segments ++ [x]) as [x Hx].
  { unfold add_segment. destruct (last segments); by eexists. }
  split; [|split; [|split]].
  - rewrite Hx, length_app. simpl. lia.
  - rewrite Hx. by rewrite take_app_length.
  - by intros ->.
  - intros ref_segment Hlast. rewrite (add_segment_nonempty _ _ _ Hlast).
    by rewrite last_snoc.
Qed.

Lemma add_segment_appends_witness :
  last (add_segment Unrecorded [Outbound]) = Some (return_leg Outbound).
Proof.
  destruct (add_segment_appends Unrecorded [Outbound]) as (_ & _ & _ & Hlast).
  apply (Hlast Outbound). reflexivity.
Defined.

(** X15: pressing "Add Segment" twice on an itinerary that ends in a
    segment appends its return leg and then a copy of the segment itself:
    the second press undoes the swap of the first. *)
Theorem add_segment_twice (new_segment ref_segment : Segment.t)
    (segments : list Segment.t) :
  last segments = Some ref_segment →
  add_segment new_segment (add_segment new_segment segments)
  = segments ++ [return_leg ref_segment; ref_segment].
Proof.
  intros Hlast. rewrite (add_segment_nonempty _ _ _ Hlast).
  rewrite (add_segment_nonempty _ (return_leg ref_segment));
    [|by rewrite last_snoc].
  by rewrite return_leg_involutive, <-app_assoc.
Qed.

Lemma add_segment_twice_witness :
  add_segment Unrecorded (add_segment Unrecorded [Outbound])
  = [Outbound; return_leg Outbound; Outbound].
Proof.
  apply (add_segment_twice Unrecorded Outbound [Outbound]). reflexivity.
Defined.

(** ** The totals of the page *)

Section Totals.
Local Open Scope R_scope.

Lemma py_sum_from_ints (a : Z) (zs : list Z) :
  py_sum_from (VInt a) (map VInt zs) = Ok (VInt (a + Zsum zs)).
Proof.
  revert a. induction zs as [|z zs IH]; intros a; simpl.
  - by rewrite Z.add_0_r.
  - res_step. change (VNum (NInt (a + z))) with (VInt (a + z)).
    rewrite IH. by rewrite Z.add_assoc.
Qed.

Lemma num_add_val (a b : num) : num_val (num_add a b) = num_val a + num_val b.
Proof. destruct a, b; simpl; try done. apply plus_IZR. Qed.

Lemma py_sum_from_nums (a : num) (vs : list pyval) :
  Forall (λ v, is_num v = true) vs →
  ∃ n, py_sum_from (VNum a) vs = Ok (VNum n)
       ∧ num_val n = num_val a + Rsum (map val_of vs).
Proof.
  intros Hvs. revert a. induction Hvs as [|v vs Hv _ IH]; intros a; simpl.
  - exists a. split; [done|]. lra.
  - destruct v as [|b|]; try discriminate. res_step.
    destruct (IH (num_add a b)) as (n & -> & Hn). exists n. split; [done|].
    rewrite Hn, num_add_val. lra.
Qed.

Lemma py_sum_from_not_num (a : num) (vs : list pyval) :
  Exists (λ v, is_num v = false) vs →
  py_sum_from (VNum a) vs = Raise TypeError.
Proof.
  intros Hvs. revert a. induction Hvs as [v vs Hv|v vs _ IH]; intros a; simpl.
  - by destruct v.
  - destruct v as [|b|]; try done. res_step. apply IH.
Qed.

Lemma Zsum_add {A : Type} (f g : A → Z) (xs : list A) :
  (Zsum (map f xs) + Zsum (map g xs))%Z = Zsum (map (λ x, f x + g x)%Z xs).
Proof.
  induction xs as [|x xs IH]; simpl; [done|]. rewrite <-IH. lia.
Qed.

Lemma calculated_ints (c : SegmentCalculation) :
  calculated c →
  app c = VInt (as_int (app c))
  ∧ app_bonus c = VInt (as_int (app_bonus c))
  ∧ sqm c = VInt (as_int (sqm c)).
Proof.
  intros (self & o & d & fb & fc & t & st & Hc).
  destruct (calculate_Ok_fields _ _ _ _ _ _ _ _ Hc) as (_ & a & b & s & -> & -> & ->).
  done.
Qed.

Lemma map_calculated_ints (f : SegmentCalculation → pyval)
    (calcs : list SegmentCalculation) :
  Forall (λ c, f c = VInt (as_int (f c))) calcs →
  map f calcs = map VInt (map (λ c, as_int (f c)) calcs).
Proof.
  induction 1 as [|c calcs Hc _ IH]; [done|]. simpl. by rewrite <-Hc, IH.
Qed.

(** The totals of calculations that came out of [calculate] and carry
    numbers as distances. *)
Lemma totals_calculated (calcs : list SegmentCalculation) :
  Forall calculated calcs →
  Forall (λ c, is_num (distance c) = true) calcs →
  ∃ n, totals calcs
       = Ok {| total_distance := VNum n;
               total_app := VInt (Zsum (map (λ c, as_int (app c)) calcs));
               total_app_bonus := VInt (Zsum (map (λ c, as_int (app_bonus c)) calcs));
               total_sqm := VInt (Zsum (map (λ c, as_int (sqm c)) calcs)) |}
       ∧ num_val n = Rsum (map (λ c, val_of (distance c)) calcs).
Proof.
  intros Hcalc Hdist. unfold totals, py_sum.
  destruct (py_sum_from_nums (NInt 0) (map distance calcs)) as (n & Hn & Hval).
  { by apply Forall_fmap. }
  exists n. change (VNum (NInt 0)) with (VInt 0) in Hn. rewrite Hn. res_step.
  rewrite (map_calculated_ints app), (map_calculated_ints app_bonus),
    (map_calculated_ints sqm);
    try (eapply Forall_impl; [exact Hcalc|]; intros c Hc;
         by destruct (calculated_ints c Hc) as (? & ? & ?)).
  rewrite !py_sum_from_ints. res_step. split; [done|].
  rewrite Hval. simpl. rewrite map_map. lra.
Qed.

End Totals.

Section SampleCalculations.
Local Open Scope R_scope.

Lemma Calc_YYZ_YVR_calculated :
  Airline.calculate Partner YYZ YVR Flex "M" "014" Status25K = Ok Calc_YYZ_YVR.
Proof.
  rewrite (calculate_travelled Partner YYZ YVR Flex "M" "014" Status25K
             (NInt 2080) (NFloat (1 / 3)));
    [|apply Partner_YYZ_YVR_distance|simpl; lra|apply Partner_M_rate].
  unfold Calc_YYZ_YVR, points_real. simpl.
  rewrite Rmax_left by lra. rewrite Rmin_left by lra.
  rewrite (Rtrunc_unique_nonneg (2080 * (1 / 3)) 693) by lra.
  rewrite (Rtrunc_unique_nonneg (2080 * (1 / 3) * 0.25) 173) by lra.
  reflexivity.
Qed.

Lemma Calc_YYZ_YOW_calculated :
  Airline.calculate Partner YYZ YOW Flex "M" "014" Status25K = Ok Calc_YYZ_YOW.
Proof. reflexivity. Qed.

Lemma sample_calculated :
  Forall calculated [Calc_YYZ_YVR; Calc_YYZ_YOW].
Proof.
  repeat apply Forall_cons_2; [| |apply Forall_nil_2].
  - eexists _, _, _, _, _, _, _. apply Calc_YYZ_YVR_calculated.
  - eexists _, _, _, _, _, _, _. apply Calc_YYZ_YOW_calculated.
Qed.

End SampleCalculations.

(** X16: the totals are computed distance first, so a single calculation
    whose distance is not a number (the [None] of a record without
    distances) makes the page's totals raise TypeError, whatever the
    other calculations are. *)
Theorem totals_raise_without_distance (calcs : list SegmentCalculation) :
  Exists (λ c, is_num (distance c) = false) calcs →
  totals calcs = Raise TypeError.
Proof.
  intros Hbad. unfold totals, py_sum.
  assert (py_sum_from (VInt 0) (map distance calcs) = Raise TypeError) as ->;
    [|reflexivity].
  apply (py_sum_from_not_num (NInt 0)).
  apply Exists_fmap. eapply Exists_impl; [exact Hbad|]. done.
Qed.

Lemma totals_raise_without_distance_witness :
  totals [Calc_YYZ_YVR; Calc_YYZ_YOW] = Raise TypeError.
Proof.
  apply (totals_raise_without_distance [Calc_YYZ_YVR; Calc_YYZ_YOW]).
  apply Exists_cons_tl, Exists_cons_hd. reflexivity.
Defined.

(** X17: over calculations returned by [calculate] whose distances are
    numbers the totals never raise: total points, bonus points and status
    miles are the integer sums of the fields, the total distance is a
    number whose value is the sum of the distances; an empty list gives
    zeros. *)
Theorem totals_of_calculations (calcs : list SegmentCalculation) :
  Forall calculated calcs →
  Forall (λ c, is_num (distance c) = true) calcs →
  ∃ n, totals calcs
       = Ok {| total_distance := VNum n;
               total_app := VInt (Zsum (map (λ c, as_int (app c)) calcs));
               total_app_bonus := VInt (Zsum (map (λ c, as_int (app_bonus c)) calcs));
               total_sqm := VInt (Zsum (map (λ c, as_int (sqm c)) calcs)) |}
       ∧ num_val n = Rsum (map (λ c, val_of (distance c)) calcs).
Proof. apply totals_calculated. Qed.

Lemma totals_of_calculations_witness :
  ∃ n, totals [Calc_YYZ_YVR; Calc_YYZ_YVR]
       = Ok {| total_distance := VNum n; total_app := VInt 1386;
               total_app_bonus := VInt 346; total_sqm := VInt 1386 |}.
Proof.
  destruct (totals_of_calculations [Calc_YYZ_YVR; Calc_YYZ_YVR]) as (n & Hn & _).
  - repeat apply Forall_cons_2; [| |apply Forall_nil_2];
      eexists _, _, _, _, _, _, _; apply Calc_YYZ_YVR_calculated.
  - repeat apply Forall_cons_2; [| |apply Forall_nil_2]; reflexivity.
  - exists n. exact Hn.
Defined.

(** X18: over such calculations the "Aeroplan Points + Status Bonus"
    metric is the sum of the "Aeroplan Points" cells of the details
    table, each cell being points plus bonus points of its segment; and
    the metric's delta is [None] exactly when the total bonus is 0. *)
Theorem headline_is_sum_of_rows (calcs : list SegmentCalculation) :
  Forall calculated calcs →
  Forall (λ c, is_num (distance c) = true) calcs →
  ∃ t, totals calcs = Ok t
       ∧ points_with_bonus t
         = Ok (VInt (Zsum (map (λ c, as_int (app c) + as_int (app_bonus c))%Z calcs)))
       ∧ Forall (λ c, row_points c
                      = Ok (VInt (as_int (app c) + as_int (app_bonus c)))) calcs
       ∧ (bonus_delta t = VNone ↔ total_app_bonus t = VInt 0).
Proof.
  intros Hcalc Hdist.
  destruct (totals_calculated calcs Hcalc Hdist) as (n & Ht & _).
  eexists. split; [exact Ht|]. split; [|split].
  - unfold points_with_bonus. simpl. by rewrite Zsum_add.
  - eapply Forall_impl; [exact Hcalc|]. intros c Hc.
    destruct (calculated_ints c Hc) as (Ha & Hb & _).
    unfold row_points. by rewrite Ha, Hb.
  - unfold bonus_delta, py_or. simpl.
    destruct (Zsum _ =? 0)%Z eqn:Hz; simpl.
    + apply Z.eqb_eq in Hz. rewrite Hz. done.
    + apply Z.eqb_neq in Hz. split; [done|]. intros [= Heq]. done.
Qed.

Lemma headline_is_sum_of_rows_witness :
  ∃ t, totals [Calc_YYZ_YVR; Calc_YYZ_YVR] = Ok t
       ∧ points_with_bonus t = Ok (VInt 1732).
Proof.
  destruct (headline_is_sum_of_rows [Calc_YYZ_YVR; Calc_YYZ_YVR])
    as (t & Ht & Hhead & _).
  - repeat apply Forall_cons_2; [| |apply Forall_nil_2];
      eexists _, _, _, _, _, _, _; apply Calc_YYZ_YVR_calculated.
  - repeat apply Forall_cons_2; [| |apply Forall_nil_2]; reflexivity.
  - exists t. split; [exact Ht|exact Hhead].
Defined.

(** ** The distance browser *)

Section Browse.

Lemma browse_columns_from (items : list (string * DistanceRecord.t))
    (ds : list string) (olds news : list pyval) :
  fold_left
    (λ '(destinations, old_distances, new_distances) '(_, distance),
       (destinations ++ [DistanceRecord.destination distance],
        old_distances ++ [DistanceRecord.old_distance distance],
        new_distances ++ [DistanceRecord.distance distance]))
    items (ds, olds, news)
  = (ds ++ map (λ kv, DistanceRecord.destination kv.2) items,
     olds ++ map (λ kv, DistanceRecord.old_distance kv.2) items,
     news ++ map (λ kv, DistanceRecord.distance kv.2) items).
Proof.
  revert ds olds news. induction items as [|[k r] items IH]; intros ds olds news.
  - simpl. by rewrite !app_nil_r.
  - simpl. rewrite IH. by rewrite <-!app_assoc.
Qed.

End Browse.

(** X19: the three columns of the distance browser have one entry per
    item of [origin.distances.items()], in the order of the items, and row
    i of the three columns comes from the i-th record: its destination,
    its legacy distance under "old" and its current distance under
    "new". *)
Theorem browse_distances_rows (items : list (string * DistanceRecord.t)) :
  let columns := browse_distances_columns items in
  let destinations := columns.1.1 in
  let old_distances := columns.1.2 in
  let new_distances := columns.2 in
  length destinations = length items
  ∧ length old_distances = length items
  ∧ length new_distances = length items
  ∧ ∀ i k rec, items !! i = Some (k, rec) →
      destinations !! i = Some (DistanceRecord.destination rec)
      ∧ old_distances !! i = Some (DistanceRecord.old_distance rec)
      ∧ new_distances !! i = Some (DistanceRecord.distance rec).
Proof.
  unfold browse_distances_columns. rewrite browse_columns_from. simpl.
  rewrite !length_map. do 3 (split; [done|]).
  intros i k rec Hi. rewrite !list_lookup_fmap, Hi. done.
Qed.

Lemma browse_distances_rows_witness :
  let columns :=
    browse_distances_columns
      [("YVR", DistanceRecord.mk "YVR" (VInt 2080) (VInt 2085));
       ("LHR", DistanceRecord.mk "LHR" VNone (VInt 3545))] in
  columns.1.1 !! 1%nat = Some "LHR"
  ∧ columns.1.2 !! 1%nat = Some (VInt 3545)
  ∧ columns.2 !! 1%nat = Some VNone.
Proof.
  destruct (browse_distances_rows
              [("YVR", DistanceRecord.mk "YVR" (VInt 2080) (VInt 2085));
               ("LHR", DistanceRecord.mk "LHR" VNone (VInt 3545))])
    as (_ & _ & _ & Hrow).
  exact (Hrow 1%nat "LHR" (DistanceRecord.mk "LHR" VNone (VInt 3545)) eq_refl).
Defined.
